(** * LicensePlateSim: the plate compositor of [app.py]

    A shallow embedding of [OregonPlateGenerator] (the text-compositing
    engine behind the Flask routes) and the properties of its
    specification.

    Python values are modelled as follows.
    - [int] is [Z]; [//] is [Z.div] (floor, as in Python, for the positive
      divisor 2 used here).
    - The plate text is a [str] on which [upper] and [strip] act code point
      by code point: [pystr] is a list of code points.  Dictionary keys,
      paths and colour names are plain (ASCII) [string]s.
    - A PIL image is an object on a heap: the program mutates it in place
      through an [ImageDraw] handle, so images are addressed by location.
      The content of an image is its size, what it was created or decoded
      from, and the drawing calls made on it since, in order; PIL's
      rasteriser is a deterministic function of these.
    - The file system is a finite map from paths to stored images; the set
      of loadable TrueType files is part of the environment.
    - Exceptions are explicit: a computation returns a value or raises, and
      the effects made before a raise persist. *)

From stdpp Require Import gmap strings list fin_maps.
From Stdlib Require Import ZArith Lia Ascii.

Open Scope Z_scope.

(** ** Python strings of code points *)

Abbreviation codepoint := N (only parsing).
Abbreviation pystr := (list codepoint) (only parsing).

Definition pystr_of_string (s : string) : pystr :=
  N_of_ascii <$> String.list_ascii_of_string s.

(** [str.isspace] on one code point: the characters CPython's
    [_PyUnicode_IsWhitespace] accepts. *)
Definition py_isspace (c : codepoint) : bool :=
  ((9 <=? c) && (c <=? 13) || (28 <=? c) && (c <=? 32)
   || (c =? 133) || (c =? 160) || (c =? 5760)
   || (8192 <=? c) && (c <=? 8202)
   || (c =? 8232) || (c =? 8233) || (c =? 8239) || (c =? 8287)
   || (c =? 12288))%N.

Fixpoint str_lstrip (s : pystr) : pystr :=
  match s with
  | [] => []
  | c :: rest => if py_isspace c then str_lstrip rest else s
  end.

Definition str_rstrip (s : pystr) : pystr := reverse (str_lstrip (reverse s)).

(** [s.strip()] *)
Definition str_strip (s : pystr) : pystr := str_rstrip (str_lstrip s).

(** [len(s)] *)
Definition len {A} (l : list A) : Z := Z.of_nat (length l).

(** [s[:k]]: a negative bound counts from the end, and both are clipped. *)
Definition slice_to {A} (k : Z) (l : list A) : list A :=
  if k <? 0 then take (Z.to_nat (len l + k)) l else take (Z.to_nat k) l.

(** ** Exceptions and the state monad of the program *)

Inductive exn :=
| ValueError (msg : string)
| FileNotFoundError (path : string)
| OSError (msg : string)
| IndexError (msg : string)
| KeyError (key : string).

Inductive result (A : Type) :=
| Ok (a : A)
| Raise (e : exn).
Arguments Ok {A} a.
Arguments Raise {A} e.

(** ** PIL objects *)

Inductive Font :=
| FreeTypeFont (path : string) (size : Z)
| DefaultFont.

Inductive ink :=
| ColorName (name : string)
| RGB (r g b : Z).

(** The [ImageDraw] calls the program makes. *)
Inductive draw_op :=
| Rectangle (xy : list Z) (fill outline : option string) (width : Z)
| Polygon (xy : list (Z * Z)) (fill : string)
| Ellipse (xy : list Z) (fill : string)
| Text (xy : Z * Z) (text : pystr) (fill : ink) (font : Font).

(** What an image started from: a solid fill ([Image.new]) or the decoded
    pixels of a file this program did not write. *)
Inductive raster :=
| Filled (color : string)
| Pixels (rows : list (list (Z * Z * Z))).

Record Image := mkImage {
  im_mode : string;
  im_size : Z * Z;
  im_base : raster;
  im_ops : list draw_op
}.

Abbreviation loc := nat (only parsing).

Record World := mkWorld {
  w_heap : list Image;               (* live Image objects, by location *)
  w_fs : gmap string Image;          (* image files on disk *)
  w_fonts : gset string;             (* TrueType files that can be loaded *)
  w_measured : list (Font * pystr)   (* textbbox calls made so far *)
}.

Definition M (A : Type) : Type := World → result A * World.

Definition ret {A} (a : A) : M A := λ w, (Ok a, w).
Definition raise {A} (e : exn) : M A := λ w, (Raise e, w).
Definition bind {A B} (m : M A) (k : A → M B) : M B :=
  λ w, match m w with
       | (Ok a, w') => k a w'
       | (Raise e, w') => (Raise e, w')
       end.

(** [try: m except <handles>: h] *)
Definition try_except {A} (m : M A) (handles : exn → bool) (h : M A) : M A :=
  λ w, match m w with
       | (Ok a, w') => (Ok a, w')
       | (Raise e, w') => if handles e then h w' else (Raise e, w')
       end.

Definition is_FileNotFoundError (e : exn) : bool :=
  match e with FileNotFoundError _ => true | _ => false end.
Definition any_exception (e : exn) : bool := true.

#[global] Instance M_ret : MRet M := @ret.
#[global] Instance M_bind : MBind M := λ A B k m, bind m k.

(** ** PIL primitives *)

(** [Image.new(mode, size, color)] *)
Definition Image_new (mode : string) (size : Z * Z) (color : string) : M loc :=
  λ w, (Ok (length (w_heap w)),
        mkWorld (w_heap w ++ [mkImage mode size (Filled color) []])
                (w_fs w) (w_fonts w) (w_measured w)).

(** [Image.open(path)]: a fresh object holding the stored image. *)
Definition Image_open (path : string) : M loc :=
  λ w, match w_fs w !! path with
       | Some im => (Ok (length (w_heap w)),
                     mkWorld (w_heap w ++ [im]) (w_fs w) (w_fonts w) (w_measured w))
       | None => (Raise (FileNotFoundError path), w)
       end.

(** [img.copy()]: a fresh object with the same content. *)
Definition Image_copy (img : loc) : M loc :=
  λ w, match w_heap w !! img with
       | Some im => (Ok (length (w_heap w)),
                     mkWorld (w_heap w ++ [im]) (w_fs w) (w_fonts w) (w_measured w))
       | None => (Raise (ValueError "no such image"), w)
       end.

(** [img.save(path)] *)
Definition Image_save (img : loc) (path : string) : M unit :=
  λ w, match w_heap w !! img with
       | Some im => (Ok (), mkWorld (w_heap w) (<[path := im]> (w_fs w))
                                   (w_fonts w) (w_measured w))
       | None => (Raise (ValueError "no such image"), w)
       end.

(** An [ImageDraw.Draw(img)] handle refers to [img] itself. *)
Abbreviation Draw := loc (only parsing).
Definition ImageDraw_Draw (img : loc) : M Draw := ret img.

Definition add_op (op : draw_op) (im : Image) : Image :=
  mkImage (im_mode im) (im_size im) (im_base im) (im_ops im ++ [op]).

Definition draw_call (draw : Draw) (op : draw_op) : M unit :=
  λ w, (Ok (), mkWorld (alter (add_op op) draw (w_heap w))
                       (w_fs w) (w_fonts w) (w_measured w)).

(** [ImageFont.truetype(path, size)]: raises for a size that is not
    positive and for a file that cannot be opened. *)
Definition ImageFont_truetype (path : string) (size : Z) : M Font :=
  λ w, if size <=? 0 then (Raise (ValueError "font size must be greater than 0"), w)
       else if decide (path ∈ w_fonts w) then (Ok (FreeTypeFont path size), w)
       else (Raise (OSError "cannot open resource"), w).

Definition ImageFont_load_default : M Font := ret DefaultFont.

(** ** [int(s, 16)] on an ASCII string

    CPython's [PyLong_FromString] at base 16: surrounding white space, an
    optional sign, an optional [0x] prefix, then hexadecimal digits with
    single underscores between them.  A byte outside ASCII is rejected. *)

Definition ascii_isspace (a : ascii) : bool := py_isspace (N_of_ascii a).

Definition hex_digit (a : ascii) : option Z :=
  let n := Z.of_N (N_of_ascii a) in
  if (48 <=? n) && (n <=? 57) then Some (n - 48)
  else if (97 <=? n) && (n <=? 102) then Some (n - 87)
  else if (65 <=? n) && (n <=? 70) then Some (n - 55)
  else None.

Fixpoint skip_spaces (s : list ascii) : list ascii :=
  match s with
  | [] => []
  | a :: rest => if ascii_isspace a then skip_spaces rest else s
  end.

(** The digit scan: [prev_us] tells whether the previous character was an
    underscore, [seen] whether a digit was read. *)
Fixpoint scan_digits (s : list ascii) (acc : Z) (prev_us seen : bool)
  : option (Z * list ascii) :=
  match s with
  | [] => if prev_us || negb seen then None else Some (acc, [])
  | a :: rest =>
      match hex_digit a with
      | Some d => scan_digits rest (acc * 16 + d) false true
      | None =>
          if Ascii.eqb a "_"%char then
            if prev_us then None else scan_digits rest acc true seen
          else if prev_us || negb seen then None else Some (acc, s)
      end
  end.

Definition int16 (s : string) : option Z :=
  let s := skip_spaces (String.list_ascii_of_string s) in
  let '(sign, s) :=
    match s with
    | "+"%char :: r => (1, r)
    | "-"%char :: r => (-1, r)
    | _ => (1, s)
    end in
  let s :=
    match s with
    | "0"%char :: "x"%char :: r | "0"%char :: "X"%char :: r =>
        match r with "_"%char :: r' => r' | _ => r end
    | _ => s
    end in
  match s with
  | "_"%char :: _ => None
  | _ =>
      match scan_digits s 0 false false with
      | Some (v, rest) =>
          match skip_spaces rest with
          | [] => Some (sign * v)
          | _ => None
          end
      | None => None
      end
  end.

(** [int(s, 16)] *)
Definition py_int16 (s : string) : M Z :=
  match int16 s with
  | Some v => ret v
  | None => raise (ValueError ("invalid literal for int() with base 16: '" +:+ s +:+ "'"))
  end.

(** [s.lstrip('#')] *)
Fixpoint lstrip_hash (s : string) : string :=
  match s with
  | String "#"%char rest => lstrip_hash rest
  | _ => s
  end.

(** [s[i:i+2]] for [i ≥ 0] *)
Definition slice2 (i : nat) (s : string) : string :=
  String.string_of_list_ascii (take 2 (drop i (String.list_ascii_of_string s))).

(** ** The generator *)

Record PlateConfig := mkConfig {
  name : string;
  image_path : string;
  text_color : string;
  text_position : Z * Z;
  font_size : Z;
  letter_spacing : Z;
  max_chars : Z
}.

Record OregonPlateGenerator := mkGenerator {
  plate_config : gmap string PlateConfig
}.

(** The one entry of the registry, as [__init__] writes it. *)
Definition standard_config : PlateConfig :=
  {| name := "Standard Oregon Tree";
     image_path := "static/images/oregon_standard_clean.png";
     text_color := "#1B365D";
     text_position := (490, 180);
     font_size := 200;
     letter_spacing := 8;
     max_chars := 10 |}.

(** [for x in l: body(x)] *)
Fixpoint for_each {A} (l : list A) (body : A → M unit) : M unit :=
  match l with
  | [] => ret ()
  | x :: rest => bind (body x) (λ _, for_each rest body)
  end.

(** [d[key]] *)
Definition getitem {V} (d : gmap string V) (key : string) : M V :=
  match d !! key with
  | Some v => ret v
  | None => raise (KeyError key)
  end.

Definition bbox := (Z * Z * Z * Z)%type.
Definition bbox0 (b : bbox) : Z := b.1.1.1.
Definition bbox1 (b : bbox) : Z := b.1.1.2.
Definition bbox2 (b : bbox) : Z := b.1.2.
Definition bbox3 (b : bbox) : Z := b.2.

(** ** Sample inputs

    An upper-case table that maps the ASCII letters and leaves every other
    code point alone, font metrics with a fixed advance per character, and
    a machine with no files and no fonts. *)

Definition ascii_upper (c : codepoint) : pystr :=
  if ((97 <=? c) && (c <=? 122))%N then [(c - 32)%N] else [c].

Definition fixed_metrics (font : Font) (s : pystr) : bbox :=
  match font with
  | FreeTypeFont _ size => (0, 0, size * len s, size)
  | DefaultFont => (1, 2, 1 + 7 * len s, 11)
  end.

Definition empty_world : World := mkWorld [] ∅ ∅ [].

(** A blank canvas, a machine whose heap holds it, and a machine whose
    disk holds it as the asset of the standard layout. *)
Definition blank_canvas : Image := mkImage "RGB" (950, 475) (Filled "#FFFFFF") [].

Definition canvas_world : World := mkWorld [blank_canvas] ∅ ∅ [].

Definition warm_world : World :=
  mkWorld [] {[ "static/images/oregon_standard_clean.png" := blank_canvas ]} ∅ [].


(** The module-level instance [plate_generator]. *)
Definition plate_generator : OregonPlateGenerator :=
  {| plate_config := {[ "standard" := standard_config ]} |}.

(** Generators with one changed layout each: no letter spacing, an asset
    under another path, a three-digit colour. *)
Definition with_layout (id : string) (config : PlateConfig) : OregonPlateGenerator :=
  {| plate_config := {[ id := config ]} |}.


Definition custom_config : PlateConfig :=
  {| name := "Custom"; image_path := "static/images/custom.png";
     text_color := "#1B365D"; text_position := (490, 180); font_size := 200;
     letter_spacing := 8; max_chars := 10 |}.

Definition shorthand_config : PlateConfig :=
  {| name := "Shorthand"; image_path := "static/images/oregon_standard_clean.png";
     text_color := "#FFF"; text_position := (490, 180); font_size := 200;
     letter_spacing := 8; max_chars := 10 |}.

(** The image a call hands back, if it hands one back. *)
Definition returned_image (r : result loc * World) : option Image :=
  match r.1 with
  | Ok img => w_heap r.2 !! img
  | Raise _ => None
  end.

Section Compositor.

(** The two tables of the runtime the program reads: the full upper-case
    mapping of a code point ([str.upper] maps each character through it)
    and the text metrics of a font (the box [textbbox] reports at the
    origin). *)
Variable to_upper_full : codepoint → pystr.
Variable font_getbbox : Font → pystr → bbox.

(** [s.upper()] *)
Definition str_upper (s : pystr) : pystr := s ≫= to_upper_full.

(** [draw.textbbox((0, 0), text, font=font)] *)
Definition ImageDraw_textbbox (draw : Draw) (text : pystr) (font : Font) : M bbox :=
  λ w, (Ok (font_getbbox font text),
        mkWorld (w_heap w) (w_fs w) (w_fonts w) (w_measured w ++ [(font, text)])).

Definition ImageDraw_text (draw : Draw) (xy : Z * Z) (text : pystr)
    (fill : ink) (font : Font) : M unit :=
  draw_call draw (Text xy text fill font).

Definition placeholder_path : string := "static/images/oregon_standard_clean.png".

Definition create_placeholder_image (self : OregonPlateGenerator) : M unit :=
  let '(width, height) := (950, 475) in
  img ← Image_new "RGB" (width, height) "#E8F4F8";
  draw ← ImageDraw_Draw img;
  let border_color := "#1B365D" in
  draw_call draw (Rectangle [10; 10; width - 10; height - 10] None (Some border_color) 8);;
  let mountain_points :=
    [(0, height - 80); (150, height - 120); (300, height - 100);
     (450, height - 140); (600, height - 110); (750, height - 130);
     (width, height - 90); (width, height); (0, height)] in
  draw_call draw (Polygon mountain_points "#2C5F7C");;
  let '(tree_x, tree_y) := (width `div` 2, height - 120) in
  draw_call draw (Rectangle [tree_x - 8; tree_y; tree_x + 8; tree_y + 40] (Some "#4A6741") None 1);;
  for_each [0; 1; 2] (λ i,
    let y_offset := tree_y - 20 - (i * 25) in
    let size := 40 - (i * 5) in
    draw_call draw (Ellipse [tree_x - size; y_offset - size `div` 2;
                             tree_x + size; y_offset + size `div` 2] "#5C8A58"));;
  font ← try_except (ImageFont_truetype "arialbold.ttf" 48) any_exception
           ImageFont_load_default;
  let text := pystr_of_string "Oregon" in
  bbox ← ImageDraw_textbbox draw text font;
  let text_width := bbox2 bbox - bbox0 bbox in
  ImageDraw_text draw (width `div` 2 - text_width `div` 2, 40) text (ColorName border_color) font;;
  let hole_positions := [(80, 80); (width - 80, 80); (80, height - 80); (width - 80, height - 80)] in
  for_each hole_positions (λ '(x, y),
    draw_call draw (Ellipse [x - 15; y - 15; x + 15; y + 15] "#000000"));;
  draw_call draw (Rectangle [80; height - 150; 160; height - 100] None (Some border_color) 3);;
  draw_call draw (Rectangle [width - 160; height - 150; width - 80; height - 100] None (Some border_color) 3);;
  Image_save img placeholder_path.

Definition create_clean_base_image (self : OregonPlateGenerator) : M unit :=
  try_except (Image_open "static/images/oregon_standard_clean.png";; ret ())
    is_FileNotFoundError
    (create_placeholder_image self).

(** [OregonPlateGenerator()]; the two [os.makedirs] calls only make sure
    the directories of the paths below exist. *)
Definition OregonPlateGenerator_init : M OregonPlateGenerator :=
  let self := {| plate_config := {[ "standard" := standard_config ]} |} in
  create_clean_base_image self;;
  ret self.

Definition hex_to_rgb (self : OregonPlateGenerator) (hex_color : string) : M ink :=
  let hex_color := lstrip_hash hex_color in
  r ← py_int16 (slice2 0 hex_color);
  g ← py_int16 (slice2 2 hex_color);
  b ← py_int16 (slice2 4 hex_color);
  ret (RGB r g b).

(** The measuring loop of [draw_text_with_spacing]. *)
Fixpoint measure_chars (draw : Draw) (font : Font) (text : pystr)
    (total_width : Z) (char_widths : list Z) : M (Z * list Z) :=
  match text with
  | [] => ret (total_width, char_widths)
  | char :: rest =>
      bbox ← ImageDraw_textbbox draw [char] font;
      let char_width := bbox2 bbox - bbox0 bbox in
      measure_chars draw font rest (total_width + char_width) (char_widths ++ [char_width])
  end.

(** The drawing loop, over [enumerate(text)] from index [i]. *)
Fixpoint draw_chars (draw : Draw) (font : Font) (color_rgb : ink) (spacing y : Z)
    (char_widths : list Z) (i : nat) (text : pystr) (current_x : Z) : M unit :=
  match text with
  | [] => ret ()
  | char :: rest =>
      ImageDraw_text draw (current_x, y - 25) [char] color_rgb font;;
      match char_widths !! i with
      | Some w =>
          draw_chars draw font color_rgb spacing y char_widths (S i) rest
            (current_x + (w + spacing))
      | None => raise (IndexError "list index out of range")
      end
  end.

(** Lines 178-186: the total width and the per-character widths. *)
Definition measure_text (draw : Draw) (font : Font) (text : pystr) (spacing : Z)
  : M (Z * list Z) :=
  let total_width := 0 in
  let char_widths := [] in
  '(total_width, char_widths) ← measure_chars draw font text total_width char_widths;
  let total_width := total_width + spacing * (len text - 1) in
  ret (total_width, char_widths).

Definition draw_text_with_spacing (self : OregonPlateGenerator) (draw : Draw)
    (text : pystr) (position : Z * Z) (font : Font) (color : string)
    (spacing : Z) : M unit :=
  let '(x, y) := position in
  color_rgb ← hex_to_rgb self color;
  '(total_width, char_widths) ← measure_text draw font text spacing;
  let current_x := x - total_width `div` 2 in
  draw_chars draw font color_rgb spacing y char_widths 0 text current_x.

Definition font_paths : list string :=
  ["C:/Windows/Fonts/arial.ttf";
   "/System/Library/Fonts/Arial.ttf";
   "/usr/share/fonts/truetype/dejavu/DejaVuSans-Bold.ttf";
   "arial.ttf"].

(** The loop over [font_paths]: the first file that loads wins. *)
Fixpoint first_font (paths : list string) (size : Z) : M (option Font) :=
  match paths with
  | [] => ret None
  | path :: rest =>
      try_except (font ← ImageFont_truetype path size; ret (Some font))
        any_exception (first_font rest size)
  end.

Definition load_font (config : PlateConfig) : M Font :=
  try_except
    (font ← first_font font_paths (font_size config);
     match font with
     | Some f => ret f
     | None => ImageFont_load_default
     end)
    any_exception ImageFont_load_default.

(** Lines 117-119: normalise and truncate. *)
Definition validate_text (config : PlateConfig) (text : pystr) : pystr :=
  let text := str_strip (str_upper text) in
  if len text >? max_chars config then slice_to (max_chars config) text else text.

Definition load_base_image (self : OregonPlateGenerator) (config : PlateConfig) : M loc :=
  try_except (Image_open (image_path config)) is_FileNotFoundError
    (create_placeholder_image self;; Image_open (image_path config)).

Definition generate_plate (self : OregonPlateGenerator) (text : pystr)
    (plate_type : string) : M loc :=
  if bool_decide (plate_type ∉ dom (plate_config self)) then
    raise (ValueError ("Unknown plate type: " +:+ plate_type))
  else
    config ← getitem (plate_config self) plate_type;
    let text := validate_text config text in
    base_img ← load_base_image self config;
    img ← Image_copy base_img;
    draw ← ImageDraw_Draw img;
    font ← load_font config;
    (if letter_spacing config >? 0 then
       draw_text_with_spacing self draw text (text_position config) font
         (text_color config) (letter_spacing config)
     else
       bbox ← ImageDraw_textbbox draw text font;
       let text_width := bbox2 bbox - bbox0 bbox in
       let text_height := bbox3 bbox - bbox1 bbox in
       let x := (text_position config).1 - text_width `div` 2 in
       let y := (text_position config).2 - text_height `div` 2 in
       fill ← hex_to_rgb self (text_color config);
       ImageDraw_text draw (x, y) text fill font);;
    ret img.

(** ** Vocabulary of the statements *)

(** The width the program measures for one character. *)
Definition char_width (font : Font) (ch : codepoint) : Z :=
  bbox2 (font_getbbox font [ch]) - bbox0 (font_getbbox font [ch]).

Definition widths (font : Font) (text : pystr) : list Z := char_width font <$> text.

Definition sumZ (l : list Z) : Z := foldr Z.add 0 l.

(** Where character [i] goes when the first one goes to [start]. *)
Definition char_x (start spacing : Z) (ws : list Z) (i : nat) : Z :=
  start + sumZ (take i ws) + Z.of_nat i * spacing.

Definition glyphs (font : Font) (fill : ink) (spacing y start : Z) (text : pystr)
  : list draw_op :=
  imap (λ i ch, Text (char_x start spacing (widths font text) i, y - 25) [ch] fill font) text.

(** The drawing calls of a plate: the glyphs of [draw_text_with_spacing]
    for the layout [config]. *)
Definition plate_ops (config : PlateConfig) (fill : ink) (font : Font) (t : pystr)
  : list draw_op :=
  glyphs font fill (letter_spacing config) (text_position config).2
    ((text_position config).1
     - (sumZ (widths font t) + letter_spacing config * (len t - 1)) `div` 2) t.

(** The width of section 4.3, step 6, in the words of the specification:
    the spacing term is left out for a text of at most one character. *)
Definition spec_total_width (ws : list Z) (spacing : Z) : Z :=
  sumZ ws + (if len ws <=? 1 then 0 else spacing * (len ws - 1)).

Definition add_ops (ops : list draw_op) (im : Image) : Image :=
  mkImage (im_mode im) (im_size im) (im_base im) (im_ops im ++ ops).


Definition measures (font : Font) (text : pystr) : list (Font * pystr) :=
  (λ ch, (font, [ch])) <$> text.

(** The font [load_font] ends with: the first candidate that loads, else
    the built-in one. *)
Definition chosen_font (fonts : gset string) (size : Z) : Font :=
  if size <=? 0 then DefaultFont
  else match filter (λ p, p ∈ fonts) font_paths with
       | p :: _ => FreeTypeFont p size
       | [] => DefaultFont
       end.

Definition placeholder_font (fonts : gset string) : Font :=
  if decide ("arialbold.ttf" ∈ fonts) then FreeTypeFont "arialbold.ttf" 48
  else DefaultFont.

(** The image [create_placeholder_image] builds. *)
Definition placeholder_image (fonts : gset string) : Image :=
  let font := placeholder_font fonts in
  let b := font_getbbox font (pystr_of_string "Oregon") in
  {| im_mode := "RGB";
     im_size := (950, 475);
     im_base := Filled "#E8F4F8";
     im_ops :=
       [Rectangle [10; 10; 940; 465] None (Some "#1B365D") 8;
        Polygon [(0, 395); (150, 355); (300, 375); (450, 335); (600, 365);
                 (750, 345); (950, 385); (950, 475); (0, 475)] "#2C5F7C";
        Rectangle [467; 355; 483; 395] (Some "#4A6741") None 1;
        Ellipse [435; 315; 515; 355] "#5C8A58";
        Ellipse [440; 293; 510; 327] "#5C8A58";
        Ellipse [445; 270; 505; 300] "#5C8A58";
        Text (475 - (bbox2 b - bbox0 b) `div` 2, 40) (pystr_of_string "Oregon")
          (ColorName "#1B365D") font;
        Ellipse [65; 65; 95; 95] "#000000";
        Ellipse [855; 65; 885; 95] "#000000";
        Ellipse [65; 380; 95; 410] "#000000";
        Ellipse [855; 380; 885; 410] "#000000";
        Rectangle [80; 325; 160; 375] None (Some "#1B365D") 3;
        Rectangle [790; 325; 870; 375] None (Some "#1B365D") 3] |}.

(** The background a call of the registered layout works from: the stored
    asset, or the placeholder when there is none yet. *)
Definition background_of (w : World) : Image :=
  default (placeholder_image (w_fonts w)) (w_fs w !! placeholder_path).

(** The machine after [load_base_image] for the registered layout. *)
Definition materialize (w : World) : World :=
  match w_fs w !! placeholder_path with
  | Some bg => mkWorld (w_heap w ++ [bg]) (w_fs w) (w_fonts w) (w_measured w)
  | None =>
      let ph := placeholder_image (w_fonts w) in
      mkWorld (w_heap w ++ [ph; ph]) (<[placeholder_path := ph]> (w_fs w)) (w_fonts w)
        (w_measured w ++ [(placeholder_font (w_fonts w), pystr_of_string "Oregon")])
  end.

(** A sequence of calls, whatever each one returns. *)
Fixpoint run_calls (self : OregonPlateGenerator) (calls : list (pystr * string))
    (w : World) : World :=
  match calls with
  | [] => w
  | (text, plate_type) :: rest =>
      run_calls self rest (generate_plate self text plate_type w).2
  end.

(** ** Normalisation and truncation *)

Lemma len_nonneg {A} (l : list A) : 0 ≤ len l.
Proof. unfold len. lia. Qed.

Lemma slice_to_take {A} (k : Z) (l : list A) :
  0 ≤ k → slice_to k l = take (Z.to_nat k) l.
Proof.
  intros Hk. unfold slice_to.
  destruct (k <? 0) eqn:E; [apply Z.ltb_lt in E; lia | done].
Qed.

Lemma validate_text_take (config : PlateConfig) (text : pystr) :
  0 ≤ max_chars config →
  validate_text config text
  = take (Z.to_nat (max_chars config)) (str_strip (str_upper text)).
Proof.
  intros Hk. unfold validate_text.
  destruct (len (str_strip (str_upper text)) >? max_chars config) eqn:E.
  - by apply slice_to_take.
  - symmetry. apply take_ge. unfold len in E.
    destruct (Z.gtb_spec (Z.of_nat (length (str_strip (str_upper text))))
                (max_chars config)); [done | lia].
Qed.



(** ** Running the loops *)


Lemma add_ops_nil (im : Image) : add_ops [] im = im.
Proof. destruct im. unfold add_ops. simpl. by rewrite app_nil_r. Qed.

Lemma add_ops_cons (op : draw_op) (ops : list draw_op) (im : Image) :
  add_ops ops (add_op op im) = add_ops (op :: ops) im.
Proof. unfold add_ops, add_op. simpl. by rewrite <- app_assoc. Qed.

Lemma list_alter_twice {A} (f g : A → A) (i : nat) (l : list A) :
  alter f i (alter g i l) = alter (f ∘ g) i l.
Proof.
  revert i. induction l as [|a l IH]; intros [|i]; try done.
  change (a :: alter f i (alter g i l) = a :: alter (f ∘ g) i l).
  by rewrite IH.
Qed.

Lemma alter_add_ops_nil (draw : Draw) (h : list Image) :
  alter (add_ops []) draw h = h.
Proof. apply list_alter_id, add_ops_nil. Qed.

Lemma alter_add_ops_cons (draw : Draw) op ops (h : list Image) :
  alter (add_ops ops) draw (alter (add_op op) draw h)
  = alter (add_ops (op :: ops)) draw h.
Proof.
  rewrite list_alter_twice. apply list_alter_ext; [| done].
  intros im _. apply add_ops_cons.
Qed.

Lemma measure_chars_run draw font text total_width char_widths w :
  measure_chars draw font text total_width char_widths w
  = (Ok (total_width + sumZ (widths font text), char_widths ++ widths font text),
     mkWorld (w_heap w) (w_fs w) (w_fonts w) (w_measured w ++ measures font text)).
Proof.
  revert total_width char_widths w.
  induction text as [|ch text IH]; intros tw cws [h fs fonts ms]; simpl.
  - unfold ret. by rewrite Z.add_0_r, !app_nil_r.
  - unfold mbind, M_bind, bind, ImageDraw_textbbox. simpl. rewrite IH. simpl.
    unfold char_width. rewrite <- !app_assoc. simpl.
    by rewrite Z.add_assoc.
Qed.

Lemma measure_text_run draw font text spacing w :
  measure_text draw font text spacing w
  = (Ok (sumZ (widths font text) + spacing * (len text - 1), widths font text),
     mkWorld (w_heap w) (w_fs w) (w_fonts w) (w_measured w ++ measures font text)).
Proof.
  unfold measure_text, mbind, M_bind, bind. by rewrite measure_chars_run.
Qed.

Lemma char_x_0 start spacing ws : char_x start spacing ws 0 = start.
Proof. unfold char_x. rewrite take_0. simpl. lia. Qed.

Lemma char_x_S start spacing w ws i :
  char_x start spacing (w :: ws) (S i) = char_x (start + (w + spacing)) spacing ws i.
Proof. unfold char_x. rewrite Nat2Z.inj_succ. simpl. lia. Qed.

Lemma glyphs_cons font fill spacing y start ch text :
  glyphs font fill spacing y start (ch :: text)
  = Text (start, y - 25) [ch] fill font
    :: glyphs font fill spacing y (start + (char_width font ch + spacing)) text.
Proof.
  unfold glyphs. rewrite imap_cons, char_x_0. f_equal.
  apply imap_ext. intros i c _. simpl.
  change (widths font (ch :: text)) with (char_width font ch :: widths font text).
  by rewrite char_x_S.
Qed.

Lemma draw_chars_run draw font fill spacing y pre text current_x w :
  draw_chars draw font fill spacing y (pre ++ widths font text) (length pre)
    text current_x w
  = (Ok (),
     mkWorld (alter (add_ops (glyphs font fill spacing y current_x text)) draw (w_heap w))
       (w_fs w) (w_fonts w) (w_measured w)).
Proof.
  revert pre current_x w.
  induction text as [|ch text IH]; intros pre x [h fs fonts ms]; simpl.
  - unfold ret. by rewrite alter_add_ops_nil.
  - unfold mbind, M_bind, bind, ImageDraw_text, draw_call. simpl.
    rewrite list_lookup_middle by done.
    replace (pre ++ char_width font ch :: widths font text)
      with ((pre ++ [char_width font ch]) ++ widths font text)
      by (by rewrite <- app_assoc).
    replace (S (length pre)) with (length (pre ++ [char_width font ch]))
      by (rewrite length_app; simpl; lia).
    rewrite IH. simpl. by rewrite alter_add_ops_cons, glyphs_cons.
Qed.

Lemma hex_to_rgb_world self color w :
  (hex_to_rgb self color w).2 = w.
Proof.
  unfold hex_to_rgb, mbind, M_bind, bind, py_int16, ret, raise.
  repeat (match goal with |- context [int16 ?s] => destruct (int16 s) end; simpl);
    done.
Qed.

Lemma hex_to_rgb_any_world self color w w' r :
  hex_to_rgb self color w = (r, w) → hex_to_rgb self color w' = (r, w').
Proof.
  unfold hex_to_rgb, mbind, M_bind, bind, py_int16, ret, raise.
  repeat (match goal with |- context [int16 ?s] => destruct (int16 s) end; simpl);
    intros [= <-]; done.
Qed.

(** The whole of [draw_text_with_spacing]: one [draw.text] per character of
    [text], after one measurement per character. *)
Lemma draw_text_with_spacing_run self draw text x y font color spacing w fill :
  hex_to_rgb self color w = (Ok fill, w) →
  draw_text_with_spacing self draw text (x, y) font color spacing w
  = (Ok (),
     mkWorld
       (alter (add_ops (glyphs font fill spacing y
                  (x - (sumZ (widths font text) + spacing * (len text - 1)) `div` 2)
                  text)) draw (w_heap w))
       (w_fs w) (w_fonts w) (w_measured w ++ measures font text)).
Proof.
  intros Hc. unfold draw_text_with_spacing, mbind, M_bind, bind.
  rewrite Hc, measure_text_run.
  apply (draw_chars_run draw font fill spacing y []).
Qed.

(** ** The placeholder, the font and the background *)

Lemma alter_last {A} (f : A → A) (l : list A) (x : A) :
  alter f (length l) (l ++ [x]) = l ++ [f x].
Proof.
  replace (length l) with (length l + 0)%nat by lia.
  by rewrite alter_app_r.
Qed.

Lemma lookup_last {A} (l : list A) (x : A) : (l ++ [x]) !! length l = Some x.
Proof. by apply list_lookup_middle. Qed.

Lemma create_placeholder_image_run self w :
  create_placeholder_image self w
  = (Ok (),
     mkWorld (w_heap w ++ [placeholder_image (w_fonts w)])
       (<[placeholder_path := placeholder_image (w_fonts w)]> (w_fs w))
       (w_fonts w)
       (w_measured w ++ [(placeholder_font (w_fonts w), pystr_of_string "Oregon")])).
Proof.
  destruct w as [h fs fonts ms].
  unfold create_placeholder_image, placeholder_image, placeholder_font.
  unfold mbind, M_bind, bind, Image_new, ImageDraw_Draw, ImageDraw_text,
    ImageDraw_textbbox, draw_call, Image_save, try_except, ImageFont_truetype,
    ImageFont_load_default, ret.
  simpl. rewrite !alter_last. simpl.
  destruct (decide ("arialbold.ttf" ∈ fonts)); simpl;
    rewrite !alter_last, lookup_last; reflexivity.
Qed.

(** Constructing the generator yields the registry with its one layout,
    and leaves the asset of that layout on disk. *)
Lemma OregonPlateGenerator_init_run w :
  ∃ w', OregonPlateGenerator_init w = (Ok plate_generator, w')
        ∧ w_fs w' !! placeholder_path = Some (background_of w)
        ∧ w_fonts w' = w_fonts w.
Proof.
  unfold OregonPlateGenerator_init, create_clean_base_image, try_except,
    mbind, M_bind, bind, Image_open, background_of.
  change "static/images/oregon_standard_clean.png" with placeholder_path.
  destruct (w_fs w !! placeholder_path) as [bg|] eqn:E; simpl.
  - eexists. split; [done |]. simpl. by rewrite E.
  - rewrite create_placeholder_image_run. eexists. split; [done |]. simpl.
    split; [apply lookup_insert_eq | done].
Qed.

Example hex_to_rgb_standard w :
  hex_to_rgb plate_generator (text_color standard_config) w = (Ok (RGB 27 54 93), w).
Proof. reflexivity. Qed.

Example int16_samples :
  int16 "1B" = Some 27 ∧ int16 "5d" = Some 93 ∧ int16 "+f" = Some 15
  ∧ int16 " 7" = Some 7 ∧ int16 "" = None ∧ int16 "0x" = None
  ∧ int16 "1_" = None ∧ int16 "G0" = None.
Proof. repeat split; reflexivity. Qed.

Lemma first_font_run paths size w :
  first_font paths size w
  = (Ok (if size <=? 0 then None
         else match filter (λ p, p ∈ w_fonts w) paths with
              | p :: _ => Some (FreeTypeFont p size)
              | [] => None
              end), w).
Proof.
  induction paths as [|path paths IH]; simpl.
  - unfold ret. by destruct (size <=? 0).
  - unfold try_except, mbind, M_bind, bind, ImageFont_truetype, any_exception.
    rewrite filter_cons. destruct (size <=? 0) eqn:E.
    + by rewrite IH.
    + destruct (decide (path ∈ w_fonts w)); [done |].
      by rewrite IH.
Qed.

Lemma load_font_run config w :
  load_font config w = (Ok (chosen_font (w_fonts w) (font_size config)), w).
Proof.
  unfold load_font, try_except, mbind, M_bind, bind, chosen_font.
  rewrite first_font_run. destruct (font_size config <=? 0); [done |].
  by destruct (filter _ font_paths).
Qed.


Lemma load_base_image_run self config w :
  image_path config = placeholder_path →
  load_base_image self config w
  = (Ok (pred (length (w_heap (materialize w)))), materialize w).
Proof.
  intros Hp. unfold load_base_image, try_except, Image_open, materialize.
  rewrite Hp. destruct (w_fs w !! placeholder_path) as [bg|] eqn:E.
  - simpl. rewrite length_app. simpl. do 2 f_equal. lia.
  - simpl. unfold mbind, M_bind, bind. rewrite create_placeholder_image_run.
    simpl. rewrite lookup_insert_eq. simpl.
    rewrite <- app_assoc. simpl. rewrite !length_app. simpl.
    do 2 f_equal. lia.
Qed.

Lemma materialize_last w :
  w_heap (materialize w) !! pred (length (w_heap (materialize w)))
  = Some (background_of w).
Proof.
  unfold materialize, background_of.
  destruct (w_fs w !! placeholder_path) as [bg|]; simpl.
  - rewrite length_app. simpl.
    replace (pred (length (w_heap w) + 1)) with (length (w_heap w)) by lia.
    apply lookup_last.
  - rewrite length_app. simpl.
    replace (pred (length (w_heap w) + 2))
      with (length (w_heap w ++ [placeholder_image (w_fonts w)]))
      by (rewrite length_app; simpl; lia).
    change (w_heap w ++ [placeholder_image (w_fonts w); placeholder_image (w_fonts w)])
      with (w_heap w ++ [placeholder_image (w_fonts w)] ++ [placeholder_image (w_fonts w)]).
    rewrite app_assoc. apply lookup_last.
Qed.

Lemma materialize_fonts w : w_fonts (materialize w) = w_fonts w.
Proof. unfold materialize. by destruct (w_fs w !! placeholder_path). Qed.

(** After [load_base_image] the asset is on disk, and it is the background
    of the call. *)
Lemma materialize_fs w :
  w_fs (materialize w) !! placeholder_path = Some (background_of w).
Proof.
  unfold materialize, background_of.
  destruct (w_fs w !! placeholder_path) as [bg|] eqn:E; simpl; [done |].
  apply lookup_insert_eq.
Qed.

Lemma registered_standard plate_type config :
  plate_config plate_generator !! plate_type = Some config →
  plate_type = "standard" ∧ config = standard_config.
Proof.
  unfold plate_generator. simpl. intros H.
  apply lookup_singleton_Some in H as [<- <-]. done.
Qed.

(** One call for the registered layout, from any machine. *)
Lemma generate_plate_run text w :
  let w1 := materialize w in
  let font := chosen_font (w_fonts w) (font_size standard_config) in
  let t := validate_text standard_config text in
  generate_plate plate_generator text "standard" w
  = (Ok (length (w_heap w1)),
     mkWorld
       (w_heap w1 ++ [add_ops (plate_ops standard_config (RGB 27 54 93) font t)
                        (background_of w)])
       (w_fs w1) (w_fonts w) (w_measured w1 ++ measures font t)).
Proof.
  intros w1 font t. subst w1 font t. unfold generate_plate.
  rewrite bool_decide_eq_false_2.
  2: { intros Hn. apply Hn, elem_of_dom. eexists. apply lookup_singleton_eq. }
  unfold mbind, M_bind, bind, getitem. simpl.
  rewrite lookup_singleton_eq. unfold ret at 1.
  rewrite load_base_image_run by done.
  unfold Image_copy. rewrite materialize_last.
  unfold ImageDraw_Draw, ret at 1. rewrite load_font_run.
  change (letter_spacing standard_config >? 0) with true. cbv iota.
  change (text_position standard_config) with (490, 180).
  erewrite draw_text_with_spacing_run by reflexivity.
  simpl. rewrite alter_last, materialize_fonts. done.
Qed.



Lemma plate_ops_nil config fill font : plate_ops config fill font [] = [].
Proof. done. Qed.

Lemma generate_plate_not_registered self text plate_type w :
  plate_config self !! plate_type = None →
  generate_plate self text plate_type w
  = (Raise (ValueError ("Unknown plate type: " +:+ plate_type)), w).
Proof.
  intros Hno. unfold generate_plate.
  rewrite bool_decide_eq_true_2; [done |]. by apply not_elem_of_dom.
Qed.







Lemma materialize_present w bg :
  w_fs w !! placeholder_path = Some bg →
  materialize w = mkWorld (w_heap w ++ [bg]) (w_fs w) (w_fonts w) (w_measured w)
  ∧ background_of w = bg.
Proof. intros H. unfold materialize, background_of. by rewrite H. Qed.

Lemma materialize_missing w :
  w_fs w !! placeholder_path = None →
  w_fs (materialize w)
  = <[placeholder_path := placeholder_image (w_fonts w)]> (w_fs w)
  ∧ background_of w = placeholder_image (w_fonts w).
Proof. intros H. unfold materialize, background_of. by rewrite H. Qed.

(** A call of the module's generator, with any layout id and any outcome,
    leaves a store that holds the asset as it is. *)
Lemma generate_plate_fs_kept text plate_type w bg :
  w_fs w !! placeholder_path = Some bg →
  w_fs (generate_plate plate_generator text plate_type w).2 = w_fs w.
Proof.
  intros Hbg. destruct (decide (plate_type = "standard")) as [-> | Hne].
  - rewrite generate_plate_run. simpl.
    by destruct (materialize_present w bg Hbg) as [-> _].
  - rewrite generate_plate_not_registered; [done |].
    unfold plate_generator. simpl. by apply lookup_singleton_ne.
Qed.

Lemma run_calls_fs_kept calls w bg :
  w_fs w !! placeholder_path = Some bg →
  w_fs (run_calls plate_generator calls w) = w_fs w.
Proof.
  revert w. induction calls as [|[text plate_type] calls IH]; intros w Hbg; [done |].
  simpl. rewrite IH.
  - by apply generate_plate_fs_kept with bg.
  - by rewrite (generate_plate_fs_kept _ _ _ bg).
Qed.

Lemma run_calls_fonts calls w :
  w_fonts (run_calls plate_generator calls w) = w_fonts w.
Proof.
  revert w. induction calls as [|[text plate_type] calls IH]; intros w; [done |].
  simpl. rewrite IH. destruct (decide (plate_type = "standard")) as [-> | Hne].
  - by rewrite generate_plate_run.
  - rewrite generate_plate_not_registered; [done |].
    unfold plate_generator. simpl. by apply lookup_singleton_ne.
Qed.


(** ** The properties of the specification *)

(** C4. A layout id that the registry does not hold makes [generate_plate]
    raise the unknown-layout error ([ValueError] with the message
    "Unknown plate type: <id>") for every text, and the machine is left
    exactly as it was: no image object, no file, no measurement. *)
Theorem unknown_layout_fails self text plate_type w :
  plate_config self !! plate_type = None →
  generate_plate self text plate_type w
  = (Raise (ValueError ("Unknown plate type: " +:+ plate_type)), w).
Proof. apply generate_plate_not_registered. Qed.

(** C3, as the code has it.  The total width that lines 178-186 compute is
    the sum of the measured widths plus [spacing * (n - 1)] for every
    length [n]: the spacing term is zero at [n = 1] and is [- spacing] at
    [n = 0]. *)
Theorem total_width_formula draw font text spacing w :
  measure_text draw font text spacing w
  = (Ok (sumZ (widths font text) + spacing * (len text - 1), widths font text),
     mkWorld (w_heap w) (w_fs w) (w_fonts w) (w_measured w ++ measures font text)).
Proof. apply measure_text_run. Qed.

Section Unicode.

(** Two facts about the upper-case table of Unicode: white space has no
    case, and the upper case of another character is not empty and holds
    no white space. *)
Hypothesis upper_space : ∀ c, py_isspace c = true → to_upper_full c = [c].
Hypothesis upper_nonspace : ∀ c, py_isspace c = false →
  to_upper_full c ≠ [] ∧ Forall (λ d, py_isspace d = false) (to_upper_full c).





End Unicode.



(** C5. For the empty text, and for any text that normalises to the empty
    one, a call with a registered layout succeeds, and the image it
    returns is the background as stored, with no drawing call on it. *)
Theorem empty_text_gives_background text plate_type config w :
  plate_config plate_generator !! plate_type = Some config →
  str_strip (str_upper text) = [] →
  ∃ img w',
    generate_plate plate_generator text plate_type w = (Ok img, w')
    ∧ w_heap w' !! img = Some (background_of w)
    ∧ w_fs w' !! image_path config = Some (background_of w).
Proof.
  intros Hreg Hempty. apply registered_standard in Hreg as [-> ->].
  eexists _, _. rewrite generate_plate_run. split; [done |]. simpl.
  assert (Hv : validate_text standard_config text = []).
  { unfold validate_text. by rewrite Hempty. }
  rewrite Hv, plate_ops_nil, add_ops_nil, lookup_last.
  split; [done |]. apply materialize_fs.
Qed.


(** C8. When the asset of the layout is not on disk, the call builds the
    placeholder, a 950 x 475 image that depends on the machine only
    through the font fallback, stores it under the asset path and
    completes on it; every later call, after any calls in between, works
    from that stored image, leaves the store alone and builds nothing
    anew (it only opens and copies). *)
Theorem missing_background_synthesized text plate_type config w :
  plate_config plate_generator !! plate_type = Some config →
  w_fs w !! image_path config = None →
  let ph := placeholder_image (w_fonts w) in
  ∃ img w' ops,
    generate_plate plate_generator text plate_type w = (Ok img, w')
    ∧ im_size ph = (950, 475)
    ∧ w_fs w' = <[image_path config := ph]> (w_fs w)
    ∧ w_heap w' !! img = Some (add_ops ops ph)
    ∧ ∀ calls text2,
        let w1 := run_calls plate_generator calls w' in
        ∃ img2 w2 ops2,
          generate_plate plate_generator text2 plate_type w1 = (Ok img2, w2)
          ∧ w_fs w2 = w_fs w'
          ∧ w_heap w2 !! img2 = Some (add_ops ops2 ph)
          ∧ length (w_heap w2) = S (S (length (w_heap w1))).
Proof.
  intros Hreg Hno ph. apply registered_standard in Hreg as [-> ->].
  change (image_path standard_config) with placeholder_path in *.
  destruct (materialize_missing w Hno) as [Hfs Hb].
  eexists _, _, _. rewrite generate_plate_run, Hb. simpl.
  split; [done |]. split; [done |]. split; [exact Hfs |].
  split; [simpl; by rewrite lookup_last |].
  intros calls text2.
  match goal with |- context [run_calls _ _ ?w0] => set (w' := w0) end.
  set (w1 := run_calls plate_generator calls w').
  assert (Hph : w_fs w' !! placeholder_path = Some ph).
  { subst w'. simpl. rewrite Hfs. apply lookup_insert_eq. }
  assert (Hfs1 : w_fs w1 = w_fs w') by (by apply run_calls_fs_kept with ph).
  assert (Hph1 : w_fs w1 !! placeholder_path = Some ph) by (by rewrite Hfs1).
  destruct (materialize_present w1 ph Hph1) as [Hm Hb1].
  eexists _, _, _. rewrite generate_plate_run, Hm, Hb1.
  split; [done |]. split; [by rewrite <- Hfs1 |].
  split; [simpl; by rewrite lookup_last |].
  simpl. rewrite !length_app. simpl. lia.
Qed.



(** ** Further properties of the code *)

(** *** [hex_to_rgb] *)

Lemma hex_digit_cases (a : ascii) (v : Z) :
  hex_digit a = Some v →
  In (a, v)
    [("0", 0); ("1", 1); ("2", 2); ("3", 3); ("4", 4); ("5", 5); ("6", 6);
     ("7", 7); ("8", 8); ("9", 9); ("a", 10); ("b", 11); ("c", 12); ("d", 13);
     ("e", 14); ("f", 15); ("A", 10); ("B", 11); ("C", 12); ("D", 13);
     ("E", 14); ("F", 15)]%char.
Proof.
  destruct a as [[] [] [] [] [] [] [] []]; vm_compute; intros H;
    try discriminate H; injection H as <-; tauto.
Qed.

Lemma hex_digit_range (a : ascii) (v : Z) : hex_digit a = Some v → 0 ≤ v ≤ 15.
Proof.
  intros H. apply hex_digit_cases in H. simpl in H.
  repeat (destruct H as [H | H]; [injection H as <- <-; lia |]). done.
Qed.

Lemma int16_two_digits (a b : ascii) (va vb : Z) :
  hex_digit a = Some va → hex_digit b = Some vb →
  int16 (String a (String b EmptyString)) = Some (16 * va + vb).
Proof.
  intros Ha Hb. apply hex_digit_cases in Ha. apply hex_digit_cases in Hb.
  simpl in Ha, Hb.
  repeat (destruct Ha as [Ha | Ha]; [injection Ha as <- <- |]); [.. | done];
    repeat (destruct Hb as [Hb | Hb]; [injection Hb as <- <-; reflexivity |]);
    done.
Qed.

Lemma length_list_ascii_of_string (s : string) :
  length (String.list_ascii_of_string s) = String.length s.
Proof. induction s as [|a s IH]; simpl; [done | by rewrite IH]. Qed.

(** X1. A colour that, after its leading '#' characters, starts with six
    hexadecimal digits converts to the three bytes they spell, each
    between 0 and 255, in either letter case; what follows the sixth digit
    is ignored, and the machine is not touched. *)
Theorem hex_to_rgb_six_digits self color d1 d2 d3 d4 d5 d6 rest v1 v2 v3 v4 v5 v6 w :
  lstrip_hash color
  = String d1 (String d2 (String d3 (String d4 (String d5 (String d6 rest))))) →
  hex_digit d1 = Some v1 → hex_digit d2 = Some v2 → hex_digit d3 = Some v3 →
  hex_digit d4 = Some v4 → hex_digit d5 = Some v5 → hex_digit d6 = Some v6 →
  hex_to_rgb self color w
  = (Ok (RGB (16 * v1 + v2) (16 * v3 + v4) (16 * v5 + v6)), w)
  ∧ 0 ≤ 16 * v1 + v2 ≤ 255 ∧ 0 ≤ 16 * v3 + v4 ≤ 255 ∧ 0 ≤ 16 * v5 + v6 ≤ 255.
Proof.
  intros Hs H1 H2 H3 H4 H5 H6. split.
  - unfold hex_to_rgb, mbind, M_bind, bind, py_int16, slice2. rewrite Hs. simpl.
    rewrite (int16_two_digits _ _ _ _ H1 H2). simpl.
    rewrite (int16_two_digits _ _ _ _ H3 H4). simpl.
    rewrite (int16_two_digits _ _ _ _ H5 H6). done.
  - apply hex_digit_range in H1, H2, H3, H4, H5, H6. lia.
Qed.

(** X2. A colour with fewer than five characters after its leading '#'
    characters, such as the three-digit shorthand, makes [hex_to_rgb] raise
    [ValueError]: there is nothing left for the blue component. *)
Theorem hex_to_rgb_short_color self color w :
  (String.length (lstrip_hash color) ≤ 4)%nat →
  ∃ msg, hex_to_rgb self color w = (Raise (ValueError msg), w).
Proof.
  intros Hlen. unfold hex_to_rgb, mbind, M_bind, bind, py_int16.
  assert (Hb : slice2 4 (lstrip_hash color) = EmptyString).
  { unfold slice2. rewrite drop_ge; [done |].
    by rewrite length_list_ascii_of_string. }
  rewrite Hb.
  destruct (int16 (slice2 0 (lstrip_hash color))); simpl; [| by eexists].
  destruct (int16 (slice2 2 (lstrip_hash color))); simpl; by eexists.
Qed.

(** *** Normalisation: lines 117-119 *)

Lemma str_lstrip_suffix (s : pystr) :
  ∃ ws, s = ws ++ str_lstrip s ∧ Forall (λ c, py_isspace c = true) ws.
Proof.
  induction s as [|c s (ws & Hs & Hws)]; [by exists [] |]. simpl.
  destruct (py_isspace c) eqn:E.
  - exists (c :: ws). split; [by rewrite Hs at 1 | by constructor].
  - by exists [].
Qed.

Lemma str_lstrip_head (s : pystr) c rest :
  str_lstrip s = c :: rest → py_isspace c = false.
Proof.
  induction s as [|d s IH]; [done |]. simpl.
  destruct (py_isspace d) eqn:E; [done |]. by intros [= <- _].
Qed.

Lemma str_lstrip_spaces (ws t : pystr) :
  Forall (λ c, py_isspace c = true) ws → str_lstrip (ws ++ t) = str_lstrip t.
Proof. induction 1 as [|c ws Hc _ IH]; [done |]. simpl. by rewrite Hc. Qed.

Lemma str_rstrip_prefix (s : pystr) :
  ∃ ws, s = str_rstrip s ++ ws ∧ Forall (λ c, py_isspace c = true) ws.
Proof.
  destruct (str_lstrip_suffix (reverse s)) as (ws & Hs & Hws).
  exists (reverse ws). split; [| by apply Forall_reverse].
  unfold str_rstrip. rewrite <- reverse_app, <- Hs. by rewrite reverse_involutive.
Qed.

Lemma str_rstrip_spaces (t ws : pystr) :
  Forall (λ c, py_isspace c = true) ws → str_rstrip (t ++ ws) = str_rstrip t.
Proof.
  intros Hws. unfold str_rstrip. rewrite reverse_app, str_lstrip_spaces; [done |].
  by apply Forall_reverse.
Qed.

Lemma str_strip_head (s : pystr) c rest :
  str_strip s = c :: rest → py_isspace c = false.
Proof.
  unfold str_strip. intros Hs.
  destruct (str_rstrip_prefix (str_lstrip s)) as (ws & Hl & _).
  rewrite Hs in Hl. simpl in Hl. by apply str_lstrip_head in Hl.
Qed.

Lemma str_strip_padding (ws1 t ws2 : pystr) :
  Forall (λ c, py_isspace c = true) ws1 →
  Forall (λ c, py_isspace c = true) ws2 →
  str_strip (ws1 ++ t ++ ws2) = str_strip t.
Proof.
  intros H1 H2. unfold str_strip. rewrite str_lstrip_spaces by done.
  induction t as [|c t IH]; simpl.
  - rewrite <- (app_nil_r ws2), str_lstrip_spaces by done. done.
  - destruct (py_isspace c); [done |].
    exact (str_rstrip_spaces (c :: t) ws2 H2).
Qed.

(** The calls of [generate_plate] see the text only through
    [validate_text]. *)
Lemma generate_plate_text_ext self t1 t2 plate_type w :
  (∀ config, validate_text config t1 = validate_text config t2) →
  generate_plate self t1 plate_type w = generate_plate self t2 plate_type w.
Proof.
  intros H. unfold generate_plate.
  destruct (bool_decide (plate_type ∉ dom (plate_config self))); [done |].
  unfold mbind, M_bind, bind, getitem.
  destruct (plate_config self !! plate_type) as [config|]; [| done].
  unfold ret at 1. by rewrite (H config).
Qed.

(** X3. With a limit that is not negative, the text kept for drawing is a
    prefix of the normalised text, has at most [max_chars] characters
    (none at all for a limit of 0) and never starts with white space. *)
Theorem validate_text_bounded config text :
  0 ≤ max_chars config →
  validate_text config text `prefix_of` str_strip (str_upper text)
  ∧ len (validate_text config text) ≤ max_chars config
  ∧ ∀ c rest, validate_text config text = c :: rest → py_isspace c = false.
Proof.
  intros Hk. rewrite validate_text_take by done. split; [| split].
  - apply prefix_take.
  - unfold len. rewrite length_take. lia.
  - intros c rest Hc.
    destruct (str_strip (str_upper text)) as [|d u] eqn:E.
    + by rewrite take_nil in Hc.
    + destruct (Z.to_nat (max_chars config)); [done |].
      simpl in Hc. injection Hc as <- _. by apply str_strip_head in E.
Qed.

(** X4. A negative limit does not empty the text: [text[:max_chars]] then
    counts from the end, and the call keeps the normalised text without
    its last [- max_chars] characters. *)
Theorem validate_text_negative_limit config text :
  max_chars config < 0 →
  validate_text config text
  = take (length (str_strip (str_upper text)) - Z.to_nat (- max_chars config))
      (str_strip (str_upper text)).
Proof.
  intros Hk. unfold validate_text.
  pose proof (len_nonneg (str_strip (str_upper text))) as Hlen.
  destruct (Z.gtb_spec (len (str_strip (str_upper text))) (max_chars config));
    [| lia].
  unfold slice_to. destruct (Z.ltb_spec (max_chars config) 0); [| lia].
  f_equal. unfold len. lia.
Qed.

Section Unicode_more.

(** Facts about the upper-case table of Unicode: white space has no case,
    and upper-casing an upper-cased character changes nothing. *)
Hypothesis upper_space : ∀ c, py_isspace c = true → to_upper_full c = [c].
Hypothesis upper_idempotent : ∀ c, str_upper (to_upper_full c) = to_upper_full c.

Lemma str_upper_spaces (ws : pystr) :
  Forall (λ c, py_isspace c = true) ws → str_upper ws = ws.
Proof.
  unfold str_upper. induction 1 as [|c ws Hc _ IH]; [done |].
  by rewrite bind_cons, IH, (upper_space c Hc).
Qed.

Lemma str_upper_app (a b : pystr) :
  str_upper (a ++ b) = str_upper a ++ str_upper b.
Proof. apply bind_app. Qed.

Lemma str_upper_twice (s : pystr) : str_upper (str_upper s) = str_upper s.
Proof.
  unfold str_upper in *. induction s as [|c s IH]; [done |].
  by rewrite bind_cons, bind_app, IH, upper_idempotent.
Qed.

(** X5. White space before and after the text makes no difference: the
    padded text and the bare text give the same call, result and effects
    alike, for every generator and layout id. *)
Theorem surrounding_whitespace_ignored self ws1 text ws2 plate_type w :
  Forall (λ c, py_isspace c = true) ws1 →
  Forall (λ c, py_isspace c = true) ws2 →
  generate_plate self (ws1 ++ text ++ ws2) plate_type w
  = generate_plate self text plate_type w.
Proof.
  intros H1 H2. apply generate_plate_text_ext. intros config.
  unfold validate_text.
  assert (Hn : str_strip (str_upper (ws1 ++ text ++ ws2))
               = str_strip (str_upper text)).
  { rewrite !str_upper_app, (str_upper_spaces ws1), (str_upper_spaces ws2) by done.
    by apply str_strip_padding. }
  by rewrite Hn.
Qed.

(** X6. The letter case of the text makes no difference: the upper-cased
    text and the text as given lead to the same call. *)
Theorem letter_case_ignored self text plate_type w :
  generate_plate self (str_upper text) plate_type w
  = generate_plate self text plate_type w.
Proof.
  apply generate_plate_text_ext. intros config.
  unfold validate_text. by rewrite str_upper_twice.
Qed.

End Unicode_more.

(** *** [generate_plate] for any registry *)

Lemma load_base_image_present self config w bg :
  w_fs w !! image_path config = Some bg →
  load_base_image self config w
  = (Ok (length (w_heap w)),
     mkWorld (w_heap w ++ [bg]) (w_fs w) (w_fonts w) (w_measured w)).
Proof. intros H. unfold load_base_image, try_except, Image_open. by rewrite H. Qed.

Lemma generate_plate_registered self text plate_type config w :
  plate_config self !! plate_type = Some config →
  generate_plate self text plate_type w
  = bind (load_base_image self config) (λ base_img,
      bind (Image_copy base_img) (λ img,
        bind (load_font config) (λ font,
          bind
            (if letter_spacing config >? 0 then
               draw_text_with_spacing self img (validate_text config text)
                 (text_position config) font (text_color config)
                 (letter_spacing config)
             else
               bind (ImageDraw_textbbox img (validate_text config text) font)
                 (λ bbox,
                    bind (hex_to_rgb self (text_color config)) (λ fill,
                      ImageDraw_text img
                        ((text_position config).1 - (bbox2 bbox - bbox0 bbox) `div` 2,
                         (text_position config).2 - (bbox3 bbox - bbox1 bbox) `div` 2)
                        (validate_text config text) fill font)))
            (λ _, ret img)))) w.
Proof.
  intros Hreg. unfold generate_plate.
  rewrite bool_decide_eq_false_2.
  2: { intros Hn. apply Hn, elem_of_dom. by eexists. }
  unfold mbind, M_bind, bind, getitem. rewrite Hreg. unfold ret at 1.
  destruct (load_base_image self config w) as [[base_img|e] w1]; [| done].
  destruct (Image_copy base_img w1) as [[img|e] w2]; [| done].
  unfold ImageDraw_Draw. done.
Qed.


(** X8. [create_placeholder_image] always saves under the path of the
    standard asset.  So for a layout whose asset lies elsewhere and is
    missing, the call writes the placeholder over the standard asset,
    whatever was stored there, and then raises [FileNotFoundError] for the
    layout's own path. *)
Theorem missing_asset_other_path self text plate_type config w :
  plate_config self !! plate_type = Some config →
  image_path config ≠ placeholder_path →
  w_fs w !! image_path config = None →
  ∃ w',
    generate_plate self text plate_type w
    = (Raise (FileNotFoundError (image_path config)), w')
    ∧ w_fs w' = <[placeholder_path := placeholder_image (w_fonts w)]> (w_fs w)
    ∧ w_fs w' !! image_path config = None.
Proof.
  intros Hreg Hne Hno.
  rewrite (generate_plate_registered _ _ _ _ _ Hreg). unfold bind at 1.
  unfold load_base_image, try_except, Image_open at 1. rewrite Hno. simpl.
  unfold mbind, M_bind, bind. rewrite create_placeholder_image_run.
  unfold Image_open. simpl. rewrite lookup_insert_ne by done. rewrite Hno.
  eexists. split; [done |]. simpl. split; [done |].
  by rewrite lookup_insert_ne.
Qed.

(** X9. With letter spacing, a layout whose colour does not convert makes
    every call fail with the error of [hex_to_rgb], for every text, the
    empty one included: the colour is converted before the first
    measurement, so nothing is measured or drawn; the background has been
    opened and copied by then. *)
Theorem malformed_color_fails self text plate_type config w bg e :
  plate_config self !! plate_type = Some config →
  0 < letter_spacing config →
  w_fs w !! image_path config = Some bg →
  hex_to_rgb self (text_color config) w = (Raise e, w) →
  generate_plate self text plate_type w
  = (Raise e,
     mkWorld (w_heap w ++ [bg; bg]) (w_fs w) (w_fonts w) (w_measured w)).
Proof.
  intros Hreg Hsp Hbg Hfill.
  rewrite (generate_plate_registered _ _ _ _ _ Hreg). unfold bind at 1.
  rewrite (load_base_image_present _ _ _ _ Hbg). unfold bind at 1.
  unfold Image_copy. simpl w_heap. rewrite lookup_last. unfold bind at 1.
  rewrite load_font_run. simpl w_fonts.
  destruct (Z.gtb_spec (letter_spacing config) 0) as [_ | Hle]; [| lia].
  unfold bind at 1. destruct (validate_text config text) as [|ch rest];
    destruct (text_position config) as [x y];
    unfold draw_text_with_spacing, mbind, M_bind, bind;
    erewrite hex_to_rgb_any_world by exact Hfill;
    simpl; by rewrite <- app_assoc.
Qed.

(** *** Fonts: lines 132-152 *)



(** *** The placeholder and the constructor: lines 11-102 *)

(** X11. [create_placeholder_image] never fails; it replaces whatever is
    stored under the standard asset path by the 950 x 475 placeholder,
    leaves every other file and every existing image object alone, and
    running it again stores the same image. *)
Theorem placeholder_overwrites_only_its_path self w :
  ∃ w1 w2,
    create_placeholder_image self w = (Ok (), w1)
    ∧ w_fs w1 !! placeholder_path = Some (placeholder_image (w_fonts w))
    ∧ im_size (placeholder_image (w_fonts w)) = (950, 475)
    ∧ (∀ p, p ≠ placeholder_path → w_fs w1 !! p = w_fs w !! p)
    ∧ (∀ l im, w_heap w !! l = Some im → w_heap w1 !! l = Some im)
    ∧ create_placeholder_image self w1 = (Ok (), w2)
    ∧ w_fs w2 = w_fs w1.
Proof.
  eexists _, _. rewrite !create_placeholder_image_run. simpl.
  split; [done |]. split; [apply lookup_insert_eq |]. split; [done |].
  split; [intros p Hp; by apply lookup_insert_ne |].
  split; [intros l im Hl; by apply lookup_app_l_Some |].
  split; [done |]. apply insert_insert_eq.
Qed.


(** *** Sequences of calls *)

Lemma not_standard plate_type :
  plate_type ≠ "standard" → plate_config plate_generator !! plate_type = None.
Proof. intros Hne. unfold plate_generator. simpl. by apply lookup_singleton_ne. Qed.

Lemma materialize_heap_prefix w : w_heap w `prefix_of` w_heap (materialize w).
Proof.
  unfold materialize. destruct (w_fs w !! placeholder_path); simpl;
    by apply prefix_app_r.
Qed.

Lemma generate_plate_heap_prefix text plate_type w :
  w_heap w `prefix_of` w_heap (generate_plate plate_generator text plate_type w).2.
Proof.
  destruct (decide (plate_type = "standard")) as [-> | Hne].
  - rewrite generate_plate_run. simpl. apply prefix_app_r, materialize_heap_prefix.
  - by rewrite generate_plate_not_registered by (by apply not_standard).
Qed.

Lemma run_calls_heap_prefix calls w :
  w_heap w `prefix_of` w_heap (run_calls plate_generator calls w).
Proof.
  revert w. induction calls as [|[text plate_type] calls IH]; intros w; [done |].
  simpl. etrans; [apply (generate_plate_heap_prefix text plate_type) | apply IH].
Qed.

Lemma generate_plate_background_kept text plate_type w :
  background_of (generate_plate plate_generator text plate_type w).2
  = background_of w.
Proof.
  destruct (decide (plate_type = "standard")) as [-> | Hne].
  - rewrite generate_plate_run. unfold background_of at 1. simpl.
    by rewrite materialize_fs.
  - by rewrite generate_plate_not_registered by (by apply not_standard).
Qed.

Lemma run_calls_background_kept calls w :
  background_of (run_calls plate_generator calls w) = background_of w.
Proof.
  revert w. induction calls as [|[text plate_type] calls IH]; intros w; [done |].
  simpl. by rewrite IH, generate_plate_background_kept.
Qed.

Lemma returned_image_generate text plate_type w :
  returned_image (generate_plate plate_generator text plate_type w)
  = if decide (plate_type = "standard") then
      Some (add_ops
              (plate_ops standard_config (RGB 27 54 93)
                 (chosen_font (w_fonts w) (font_size standard_config))
                 (validate_text standard_config text))
              (background_of w))
    else None.
Proof.
  destruct (decide (plate_type = "standard")) as [-> | Hne].
  - rewrite generate_plate_run. unfold returned_image. simpl. apply lookup_last.
  - by rewrite generate_plate_not_registered by (by apply not_standard).
Qed.

(** X13. Once the generator is constructed, no sequence of calls writes
    to the store: the placeholder is never built again, whatever the texts
    and layout ids of the calls. *)
Theorem no_store_write_after_init w calls :
  w_fs (run_calls plate_generator calls (OregonPlateGenerator_init w).2)
  = w_fs (OregonPlateGenerator_init w).2.
Proof.
  destruct (OregonPlateGenerator_init_run w) as (w' & Hinit & Hbg & _).
  rewrite Hinit. simpl. by apply run_calls_fs_kept with (background_of w).
Qed.

(** X14. An image object is never changed by later calls: whatever an
    image holds, a returned plate included, it still holds after any
    sequence of calls with any texts and layout ids. *)
Theorem images_never_changed_later calls w l im :
  w_heap w !! l = Some im →
  w_heap (run_calls plate_generator calls w) !! l = Some im.
Proof.
  intros Hl. eapply prefix_lookup_Some; [exact Hl | apply run_calls_heap_prefix].
Qed.

(** X15. Every call hands back a new object: the returned image is none of
    the objects that existed before the call, so two calls never return
    the same image and the caller of one is the only holder of its
    result. *)
Theorem returned_image_is_fresh text plate_type w img w' :
  generate_plate plate_generator text plate_type w = (Ok img, w') →
  w_heap w !! img = None ∧ is_Some (w_heap w' !! img).
Proof.
  destruct (decide (plate_type = "standard")) as [-> | Hne].
  - rewrite generate_plate_run. intros [= <- <-]. simpl. split.
    + apply lookup_ge_None. apply prefix_length, materialize_heap_prefix.
    + rewrite lookup_last. by eexists.
  - by rewrite generate_plate_not_registered by (by apply not_standard).
Qed.

(** X16. The image of a request does not depend on the calls made before
    it: the same text and layout id give an image with the same content
    after any sequence of calls as without them, on a store that already
    holds the asset and on one that does not. *)
Theorem result_independent_of_history calls text plate_type w :
  returned_image (generate_plate plate_generator text plate_type
                    (run_calls plate_generator calls w))
  = returned_image (generate_plate plate_generator text plate_type w).
Proof.
  rewrite !returned_image_generate.
  by rewrite run_calls_fonts, run_calls_background_kept.
Qed.

(** *** [draw_text_with_spacing]: what it leaves alone *)

(** X17. Whatever happens, [draw_text_with_spacing] changes nothing but
    the image of its drawing handle: the files, the fonts, the number of
    image objects and every other image are as before. *)
Theorem draw_text_with_spacing_frame self draw text position font color spacing w :
  let w' := (draw_text_with_spacing self draw text position font color spacing w).2 in
  w_fs w' = w_fs w
  ∧ w_fonts w' = w_fonts w
  ∧ length (w_heap w') = length (w_heap w)
  ∧ ∀ l, l ≠ draw → w_heap w' !! l = w_heap w !! l.
Proof.
  destruct position as [x y].
  destruct (hex_to_rgb self color w) as [[fill | e] w0] eqn:E;
    pose proof (hex_to_rgb_world self color w) as Hw; rewrite E in Hw;
    simpl in Hw; subst w0.
  - rewrite (draw_text_with_spacing_run _ _ _ _ _ _ _ _ _ _ E). simpl.
    split; [done |]. split; [done |]. split; [apply length_alter |].
    intros l Hl. by apply list_lookup_alter_ne.
  - unfold draw_text_with_spacing, mbind, M_bind, bind. rewrite E. simpl.
    done.
Qed.

End Compositor.

(** ** The properties at sample inputs *)

Lemma ascii_upper_space (c : codepoint) :
  py_isspace c = true → ascii_upper c = [c].
Proof.
  intros Hsp. unfold ascii_upper.
  destruct ((97 <=? c) && (c <=? 122))%N eqn:E; [| done].
  apply andb_prop in E as [E1 E2]. apply N.leb_le in E1, E2.
  unfold py_isspace in Hsp.
  repeat (apply orb_prop in Hsp as [Hsp | Hsp]);
    try (apply andb_prop in Hsp as [H1 H2]; apply N.leb_le in H1, H2; lia);
    apply N.eqb_eq in Hsp; lia.
Qed.



Lemma unknown_layout_fails_witness :
  plate_config plate_generator !! "vanity" = None
  ∧ generate_plate ascii_upper fixed_metrics plate_generator
      (pystr_of_string "abc") "vanity" empty_world
    = (Raise (ValueError "Unknown plate type: vanity"), empty_world).
Proof.
  split; [reflexivity |].
  apply (unknown_layout_fails ascii_upper fixed_metrics plate_generator
           (pystr_of_string "abc") "vanity" empty_world).
  reflexivity.
Defined.



(** The width the code computes for the empty text at the registered
    spacing is -8, not the 0 of the specification's formula. *)
Lemma total_width_empty_text_counterexample :
  (measure_text fixed_metrics 0%nat DefaultFont [] 8 empty_world).1
  ≠ Ok (spec_total_width (widths fixed_metrics DefaultFont []) 8,
        widths fixed_metrics DefaultFont []).
Proof. vm_compute. discriminate. Qed.

Lemma empty_text_gives_background_witness :
  plate_config plate_generator !! "standard" = Some standard_config
  ∧ str_strip (str_upper ascii_upper (pystr_of_string "  ")) = []
  ∧ ∃ img w',
      generate_plate ascii_upper fixed_metrics plate_generator
        (pystr_of_string "  ") "standard" warm_world = (Ok img, w')
      ∧ w_heap w' !! img = Some blank_canvas
      ∧ w_fs w' !! image_path standard_config = Some blank_canvas.
Proof.
  split; [reflexivity |]. split; [reflexivity |].
  apply (empty_text_gives_background ascii_upper fixed_metrics
           (pystr_of_string "  ") "standard" standard_config warm_world);
    reflexivity.
Defined.



Lemma missing_background_synthesized_witness :
  plate_config plate_generator !! "standard" = Some standard_config
  ∧ w_fs empty_world !! image_path standard_config = None
  ∧ let ph := placeholder_image fixed_metrics ∅ in
    ∃ img w' ops,
      generate_plate ascii_upper fixed_metrics plate_generator
        (pystr_of_string "abc") "standard" empty_world = (Ok img, w')
      ∧ im_size ph = (950, 475)
      ∧ w_fs w' = <[image_path standard_config := ph]> ∅
      ∧ w_heap w' !! img = Some (add_ops ops ph)
      ∧ ∀ calls text2,
          let w1 := run_calls ascii_upper fixed_metrics plate_generator calls w' in
          ∃ img2 w2 ops2,
            generate_plate ascii_upper fixed_metrics plate_generator text2
              "standard" w1 = (Ok img2, w2)
            ∧ w_fs w2 = w_fs w'
            ∧ w_heap w2 !! img2 = Some (add_ops ops2 ph)
            ∧ length (w_heap w2) = S (S (length (w_heap w1))).
Proof.
  split; [reflexivity |]. split; [reflexivity |].
  apply (missing_background_synthesized ascii_upper fixed_metrics
           (pystr_of_string "abc") "standard" standard_config empty_world);
    reflexivity.
Defined.



(** *** The further properties at sample inputs *)

Lemma ascii_upper_idempotent (c : codepoint) :
  str_upper ascii_upper (ascii_upper c) = ascii_upper c.
Proof.
  unfold str_upper, ascii_upper.
  destruct ((97 <=? c) && (c <=? 122))%N eqn:E; simpl; rewrite app_nil_r.
  - apply andb_prop in E as [E1 E2]. apply N.leb_le in E1, E2.
    destruct (N.leb_spec 97 (c - 32)); [lia | done].
  - by rewrite E.
Qed.

Lemma hex_to_rgb_six_digits_witness :
  lstrip_hash "##1b365Dff"
  = String "1" (String "b" (String "3" (String "6" (String "5" (String "D" "ff")))))
  ∧ hex_to_rgb plate_generator "##1b365Dff" empty_world
    = (Ok (RGB (16 * 1 + 11) (16 * 3 + 6) (16 * 5 + 13)), empty_world)
  ∧ 0 ≤ 16 * 1 + 11 ≤ 255 ∧ 0 ≤ 16 * 3 + 6 ≤ 255 ∧ 0 ≤ 16 * 5 + 13 ≤ 255.
Proof.
  split; [reflexivity |].
  apply (hex_to_rgb_six_digits plate_generator "##1b365Dff"
           "1" "b" "3" "6" "5" "D" "ff" 1 11 3 6 5 13 empty_world);
    reflexivity.
Defined.

Lemma hex_to_rgb_short_color_witness :
  (String.length (lstrip_hash "#FFF") ≤ 4)%nat
  ∧ ∃ msg, hex_to_rgb plate_generator "#FFF" empty_world
           = (Raise (ValueError msg), empty_world).
Proof.
  split; [vm_compute; lia |].
  apply (hex_to_rgb_short_color plate_generator "#FFF" empty_world).
  vm_compute. lia.
Defined.

Lemma validate_text_bounded_witness :
  0 ≤ max_chars standard_config
  ∧ validate_text ascii_upper standard_config (pystr_of_string " oregon coast ")
    `prefix_of` str_strip (str_upper ascii_upper (pystr_of_string " oregon coast "))
  ∧ len (validate_text ascii_upper standard_config (pystr_of_string " oregon coast "))
    ≤ max_chars standard_config
  ∧ ∀ c rest,
      validate_text ascii_upper standard_config (pystr_of_string " oregon coast ")
      = c :: rest → py_isspace c = false.
Proof.
  split; [vm_compute; discriminate |].
  apply (validate_text_bounded ascii_upper standard_config
           (pystr_of_string " oregon coast ")).
  vm_compute. discriminate.
Defined.

Lemma validate_text_negative_limit_witness :
  max_chars (mkConfig "Negative" "a.png" "#000000" (0, 0) 10 8 (-2)) < 0
  ∧ validate_text ascii_upper (mkConfig "Negative" "a.png" "#000000" (0, 0) 10 8 (-2))
      (pystr_of_string "abcdef")
    = pystr_of_string "ABCD".
Proof.
  split; [reflexivity |].
  apply (validate_text_negative_limit ascii_upper
           (mkConfig "Negative" "a.png" "#000000" (0, 0) 10 8 (-2))
           (pystr_of_string "abcdef")).
  reflexivity.
Defined.

Lemma surrounding_whitespace_ignored_witness :
  Forall (λ c, py_isspace c = true) [32; 9]%N
  ∧ Forall (λ c, py_isspace c = true) [10]%N
  ∧ generate_plate ascii_upper fixed_metrics plate_generator
      ([32; 9]%N ++ pystr_of_string "abc" ++ [10]%N) "standard" warm_world
    = generate_plate ascii_upper fixed_metrics plate_generator
        (pystr_of_string "abc") "standard" warm_world.
Proof.
  split; [by repeat constructor |]. split; [by repeat constructor |].
  apply (surrounding_whitespace_ignored ascii_upper fixed_metrics
           ascii_upper_space plate_generator [32; 9]%N (pystr_of_string "abc")
           [10]%N "standard" warm_world);
    by repeat constructor.
Defined.

Lemma letter_case_ignored_witness :
  generate_plate ascii_upper fixed_metrics plate_generator
    (str_upper ascii_upper (pystr_of_string "abc")) "standard" warm_world
  = generate_plate ascii_upper fixed_metrics plate_generator
      (pystr_of_string "abc") "standard" warm_world.
Proof.
  apply (letter_case_ignored ascii_upper fixed_metrics ascii_upper_idempotent
           plate_generator (pystr_of_string "abc") "standard" warm_world).
Defined.


Lemma missing_asset_other_path_witness :
  plate_config (with_layout "custom" custom_config) !! "custom" = Some custom_config
  ∧ image_path custom_config ≠ placeholder_path
  ∧ w_fs warm_world !! image_path custom_config = None
  ∧ ∃ w',
      generate_plate ascii_upper fixed_metrics (with_layout "custom" custom_config)
        (pystr_of_string "abc") "custom" warm_world
      = (Raise (FileNotFoundError "static/images/custom.png"), w')
      ∧ w_fs w' = <[placeholder_path := placeholder_image fixed_metrics ∅]>
                    (w_fs warm_world)
      ∧ w_fs w' !! image_path custom_config = None.
Proof.
  split; [reflexivity |]. split; [discriminate |]. split; [reflexivity |].
  apply (missing_asset_other_path ascii_upper fixed_metrics
           (with_layout "custom" custom_config) (pystr_of_string "abc") "custom"
           custom_config warm_world);
    [reflexivity | discriminate | reflexivity].
Defined.

Lemma malformed_color_fails_witness :
  plate_config (with_layout "shorthand" shorthand_config) !! "shorthand"
  = Some shorthand_config
  ∧ 0 < letter_spacing shorthand_config
  ∧ generate_plate ascii_upper fixed_metrics
      (with_layout "shorthand" shorthand_config) [] "shorthand" warm_world
    = (Raise (ValueError "invalid literal for int() with base 16: ''"),
       mkWorld [blank_canvas; blank_canvas] (w_fs warm_world) ∅ []).
Proof.
  split; [reflexivity |]. split; [reflexivity |].
  apply (malformed_color_fails ascii_upper fixed_metrics
           (with_layout "shorthand" shorthand_config) [] "shorthand"
           shorthand_config warm_world blank_canvas
           (ValueError "invalid literal for int() with base 16: ''"));
    reflexivity.
Defined.


Lemma placeholder_overwrites_only_its_path_witness :
  ∃ w1 w2,
    create_placeholder_image fixed_metrics plate_generator warm_world = (Ok (), w1)
    ∧ w_fs w1 !! placeholder_path = Some (placeholder_image fixed_metrics ∅)
    ∧ im_size (placeholder_image fixed_metrics ∅) = (950, 475)
    ∧ (∀ p, p ≠ placeholder_path → w_fs w1 !! p = w_fs warm_world !! p)
    ∧ (∀ l im, w_heap warm_world !! l = Some im → w_heap w1 !! l = Some im)
    ∧ create_placeholder_image fixed_metrics plate_generator w1 = (Ok (), w2)
    ∧ w_fs w2 = w_fs w1.
Proof.
  exact (placeholder_overwrites_only_its_path fixed_metrics plate_generator warm_world).
Defined.


Lemma images_never_changed_later_witness :
  w_heap canvas_world !! 0%nat = Some blank_canvas
  ∧ w_heap (run_calls ascii_upper fixed_metrics plate_generator
              [(pystr_of_string "abc", "standard"); (pystr_of_string "x", "vanity")]
              canvas_world) !! 0%nat
    = Some blank_canvas.
Proof.
  split; [reflexivity |].
  apply (images_never_changed_later ascii_upper fixed_metrics
           [(pystr_of_string "abc", "standard"); (pystr_of_string "x", "vanity")]
           canvas_world 0%nat blank_canvas).
  reflexivity.
Defined.

Lemma returned_image_is_fresh_witness :
  w_heap canvas_world !! 3%nat = None
  ∧ is_Some ((generate_plate ascii_upper fixed_metrics plate_generator
                (pystr_of_string "abc") "standard" canvas_world).2.(w_heap) !! 3%nat).
Proof.
  apply (returned_image_is_fresh ascii_upper fixed_metrics
           (pystr_of_string "abc") "standard" canvas_world 3%nat
           (generate_plate ascii_upper fixed_metrics plate_generator
              (pystr_of_string "abc") "standard" canvas_world).2).
  vm_compute. reflexivity.
Defined.

Lemma draw_text_with_spacing_frame_witness :
  let w' := (draw_text_with_spacing fixed_metrics plate_generator 0%nat
               (pystr_of_string "ABC") (490, 180) DefaultFont "#1B365D" 8
               canvas_world).2 in
  w_fs w' = w_fs canvas_world
  ∧ w_fonts w' = w_fonts canvas_world
  ∧ length (w_heap w') = length (w_heap canvas_world)
  ∧ ∀ l, l ≠ 0%nat → w_heap w' !! l = w_heap canvas_world !! l.
Proof.
  exact (draw_text_with_spacing_frame fixed_metrics plate_generator 0%nat
           (pystr_of_string "ABC") (490, 180) DefaultFont "#1B365D" 8 canvas_world).
Defined.
